(** * AsyncData: a shallow embedding of [src/async-data.ts]

    The library is a TypeScript namespace of nine small functions over
    JavaScript objects.  Static types are erased at run time, so the
    functions are modelled over untyped JavaScript values.

    Modelling choices, all taken from what the source does at run time:

    - an object has own properties, each a value with its enumerable flag,
      and a prototype chain.  Reading [x.k] and [Reflect.has(x, k)] look at
      the own properties and then along the chain, whatever the flag; a
      spread [{...x}] copies the own enumerable properties only.  A key bound
      to [undefined] is present, a key that is not bound is absent;
    - the chain is given by the properties of its links, nearest first.  The
      library never writes to an object and never compares prototypes, so
      the content of the links is all it can observe.  The built-in
      [Object.prototype] that ends the chain of an ordinary object defines
      none of the keys the library asks for ([state], [isLoading], [data])
      and is left out: an object literal has an empty chain;
    - properties are data properties with string keys; accessors, proxies and
      symbol keys are not modelled;
    - objects live in a heap and are denoted by references, so that two
      fields holding "the same instance" hold the same reference; an object
      literal allocates a new heap cell and nothing in the library writes to
      an existing one;
    - a call either returns a value or throws; both keep the heap they
      reached.  Dereferencing a location outside the heap is not a
      JavaScript behaviour and is reported apart ([Wrong]);
    - an omitted argument is [undefined], as in JavaScript;
    - numbers are integers: the library never inspects a payload, and the
      only comparisons it makes are against string literals. *)

From stdpp Require Import gmap strings list pretty.

(** ** Values, objects, heaps *)

Abbreviation loc := nat (only parsing).

Inductive value : Type :=
  | VUndefined
  | VNull
  | VBool (b : bool)
  | VNum (n : Z)
  | VStr (s : string)
  | VRef (l : loc).

#[global] Instance value_eq_dec : EqDecision value.
Proof. solve_decision. Defined.

(** A data property: its value and whether enumeration sees it. *)
Record property : Type := Property { value_of : value; enumerable : bool }.

(** An object: its own properties and the links of its prototype chain. *)
Record object : Type := Object {
  own : gmap string property;
  protos : list (gmap string property)
}.

Abbreviation heap := (list object) (only parsing).

(** What a [throw] carries: the engine's own [TypeError], or an [Error]
    built by the library with its message. *)
Inductive exn : Type :=
  | TypeError
  | Error (message : string).

Inductive outcome (A : Type) : Type :=
  | Ret (a : A) (h : heap)
  | Throw (e : exn) (h : heap)
  | Wrong.
Arguments Ret {A} a h.
Arguments Throw {A} e h.
Arguments Wrong {A}.

(** ** The evaluation monad: heap passing with exceptions *)

Definition M (A : Type) : Type := heap → outcome A.

#[global] Instance M_ret : MRet M := λ A a h, Ret a h.

#[global] Instance M_bind : MBind M := λ A B f m h,
  match m h with
  | Ret a h' => f a h'
  | Throw e h' => Throw e h'
  | Wrong => Wrong
  end.

Definition throw {A : Type} (e : exn) : M A := λ h, Throw e h.

(** A new cell at the end of the heap. *)
Definition alloc (o : object) : M value := λ h, Ret (VRef (length h)) (h ++ [o]).

(** ** Objects *)

(** The first link of a chain that binds [k] decides. *)
Fixpoint chain_find (chain : list (gmap string property)) (k : string) : option property :=
  match chain with
  | [] => None
  | m :: rest =>
      match m !! k with
      | Some p => Some p
      | None => chain_find rest k
      end
  end.

(** The property [k] of [o], own or inherited. *)
Definition find_property (o : object) (k : string) : option property :=
  chain_find (own o :: protos o) k.

(** What reading [o.k] gives: [undefined] when no link binds [k]. *)
Definition field (o : object) (k : string) : value :=
  from_option value_of VUndefined (find_property o k).

(** [k in o]. *)
Definition has_property (o : object) (k : string) : bool :=
  bool_decide (is_Some (find_property o k)).

(** The own enumerable properties of [o], which is what a spread copies. *)
Definition own_enumerable (o : object) : gmap string value :=
  omap (λ p, if enumerable p then Some (value_of p) else None) (own o).

(** The object an object literal with entries [m] builds: every entry an
    own enumerable property, no link of its own in the chain. *)
Definition literal (m : gmap string value) : object :=
  Object ((λ v, Property v true) <$> m) [].

(** ** JavaScript primitives used by the source *)

(** [ToBoolean]. *)
Definition to_boolean (v : value) : bool :=
  match v with
  | VUndefined | VNull => false
  | VBool b => b
  | VNum n => negb (n =? 0)%Z
  | VStr s => negb (String.eqb s "")
  | VRef _ => true
  end.

(** [typeof v]. *)
Definition typeof (v : value) : string :=
  match v with
  | VUndefined => "undefined"
  | VNull => "object"
  | VBool _ => "boolean"
  | VNum _ => "number"
  | VStr _ => "string"
  | VRef _ => "object"
  end.

(** [a === b]: same type and same primitive, or same reference. *)
Definition strict_equals (a b : value) : bool := bool_decide (a = b).

(** [xs.includes(v)]: some element is the same value as [v]. *)
Definition includes (xs : list value) (v : value) : bool :=
  existsb (λ x, strict_equals x v) xs.

(** [a ?? b]. *)
Definition nullish_coalesce (a b : value) : value :=
  match a with
  | VUndefined | VNull => b
  | _ => a
  end.

(** [v.k]: a [TypeError] on [undefined] and [null]; on an object the own or
    inherited property, [undefined] when there is none; a primitive is
    boxed, and its wrapper has none of the keys the library reads ([state],
    [data]). *)
Definition get_prop (v : value) (k : string) : M value := λ h,
  match v with
  | VUndefined | VNull => Throw TypeError h
  | VRef l =>
      match h !! l with
      | Some o => Ret (field o k) h
      | None => Wrong
      end
  | VBool _ | VNum _ | VStr _ => Ret VUndefined h
  end.

(** [v?.k]. *)
Definition get_prop_opt (v : value) (k : string) : M value :=
  match v with
  | VUndefined | VNull => mret VUndefined
  | _ => get_prop v k
  end.

(** [Reflect.has(target, k)]: a [TypeError] unless [target] is an object,
    and then [k in target]. *)
Definition reflect_has (target : value) (k : string) : M value := λ h,
  match target with
  | VRef l =>
      match h !! l with
      | Some o => Ret (VBool (has_property o k)) h
      | None => Wrong
      end
  | _ => Throw TypeError h
  end.

(** The entries [{...v}] copies: the own enumerable properties of an
    object, the indexed characters of a string, nothing for any other
    primitive. *)
Definition spread (v : value) : M (gmap string value) := λ h,
  match v with
  | VRef l =>
      match h !! l with
      | Some o => Ret (own_enumerable o) h
      | None => Wrong
      end
  | VStr s =>
      Ret (list_to_map
             (imap (λ i c, (pretty i, VStr (String c ""))) (String.list_ascii_of_string s))) h
  | _ => Ret ∅ h
  end.

(** ** The namespace [AsyncData] *)

Module AsyncData.

Definition create (data isLoading : value) : M value :=
  alloc (literal (<["data" := data]>
                 (<["state" := VStr "pending"]>
                 (<["isLoading" := nullish_coalesce isLoading (VBool false)]> ∅)))).

Definition resolve (data : value) : M value :=
  alloc (literal (<["data" := data]>
                 (<["state" := VStr "fulfilled"]>
                 (<["isLoading" := VBool false]> ∅)))).

Definition reject (data error : value) : M value :=
  alloc (literal (<["data" := data]>
                 (<["state" := VStr "rejected"]>
                 (<["error" := error]>
                 (<["isLoading" := VBool false]> ∅))))).

Definition isPending (data : value) : M value :=
  s ← get_prop data "state";
  mret (VBool (strict_equals s (VStr "pending"))).

Definition isFulfilled (data : value) : M value :=
  s ← get_prop_opt data "state";
  mret (VBool (strict_equals s (VStr "fulfilled"))).

(** [Boolean(data && data.state === 'fulfilled' && typeof data.data !== 'undefined')];
    [a && b] is [a] when [a] is falsy and does not evaluate [b] then. *)
Definition isFulfilledAndDefined (data : value) : M value :=
  r ← (if to_boolean data then
         s ← get_prop data "state";
         if strict_equals s (VStr "fulfilled") then
           d ← get_prop data "data";
           mret (VBool (negb (String.eqb (typeof d) "undefined")))
         else mret (VBool false)
       else mret data);
  mret (VBool (to_boolean r)).

Definition isRejected (data : value) : M value :=
  s ← get_prop data "state";
  mret (VBool (strict_equals s (VStr "rejected"))).

(** [AsyncData.is]; [is] is reserved in Rocq, hence the underscore. *)
Definition is_ (object : value) : M value :=
  a ← reflect_has object "state";
  if to_boolean a then reflect_has object "isLoading" else mret a.

Definition fork_tags : list value :=
  [VStr "pending"; VStr "rejected"; VStr "fulfilled"].

Definition fork_error : exn :=
  Error "Cannot fork the provided AsyncData Object. Unsupported state.".

(** [{ ...source, data }] is an object literal: the entries of the spread,
    then [data]. *)
Definition fork (source data : value) : M value :=
  s ← get_prop source "state";
  if negb (includes fork_tags s) then throw fork_error
  else
    m ← spread source;
    alloc (literal (<["data" := data]> m)).

End AsyncData.

Import AsyncData.

(** ** Vocabulary of the statements *)

(** The three tags of the union [AsyncData] (lines 6-10 of the source). *)
Definition recognized (v : value) : Prop :=
  v = VStr "pending" ∨ v = VStr "fulfilled" ∨ v = VStr "rejected".

(** A value is usable in heap [h] when, being a reference, it is allocated. *)
Definition val_ok (h : heap) (v : value) : Prop :=
  match v with
  | VRef l => is_Some (h !! l)
  | _ => True
  end.

(** The primitives that property access boxes: booleans, numbers, strings. *)
Definition boxable (v : value) : bool :=
  match v with
  | VBool _ | VNum _ | VStr _ => true
  | _ => false
  end.


(** The three state predicates applied in turn to one value. *)
Definition classify (v : value) : M (value * value * value) :=
  p ← isPending v;
  f ← isFulfilled v;
  r ← isRejected v;
  mret (p, f, r).


(** The entries of [{state: "fulfilled", data: null, isLoading: false}]. *)
Definition fulfilled_null_literal : gmap string value :=
  <["state" := VStr "fulfilled"]> (<["data" := VNull]> (<["isLoading" := VBool false]> ∅)).

(** [Object.create(proto)] for a literal [proto] with entries [m]: no own
    property, one link. *)
Definition created_from (m : gmap string value) : object :=
  Object ∅ [own (literal m)].

(** [Object.create({state: "pending", isLoading: false})]. *)
Definition inherited_pending : object :=
  created_from (<["state" := VStr "pending"]> (<["isLoading" := VBool false]> ∅)).


(** ** Equations of the object model *)

Lemma own_enumerable_literal (m : gmap string value) : own_enumerable (literal m) = m.
Proof.
  apply map_eq. intros k. unfold own_enumerable, literal. cbn.
  rewrite lookup_omap, lookup_fmap. by destruct (m !! k).
Qed.

Lemma find_property_literal (m : gmap string value) k :
  find_property (literal m) k = (λ v, Property v true) <$> m !! k.
Proof.
  unfold find_property, literal. cbn. rewrite lookup_fmap. by destruct (m !! k).
Qed.

Lemma field_literal (m : gmap string value) k : field (literal m) k = default VUndefined (m !! k).
Proof. unfold field. rewrite find_property_literal. by destruct (m !! k). Qed.

Lemma has_property_literal (m : gmap string value) k :
  has_property (literal m) k = bool_decide (is_Some (m !! k)).
Proof.
  unfold has_property. rewrite find_property_literal.
  apply bool_decide_ext. by rewrite fmap_is_Some.
Qed.

(** An own property shadows the chain. *)
Lemma field_own_enumerable (o : object) k v : own_enumerable o !! k = Some v → field o k = v.
Proof.
  unfold own_enumerable, field, find_property. rewrite lookup_omap. cbn.
  destruct (own o !! k) as [[w e]|]; cbn; [|done]. by destruct e; intros [=].
Qed.

(** ** Equations of the primitives on an allocated object *)

Section OnObject.
Context (h : heap) (l : loc) (o : object).
Hypothesis Hl : h !! l = Some o.

Lemma get_prop_obj k : get_prop (VRef l) k h = Ret (field o k) h.
Proof using Hl. unfold get_prop. by rewrite Hl. Qed.

Lemma reflect_has_obj k : reflect_has (VRef l) k h = Ret (VBool (has_property o k)) h.
Proof using Hl. unfold reflect_has. by rewrite Hl. Qed.

Lemma spread_obj : spread (VRef l) h = Ret (own_enumerable o) h.
Proof using Hl. unfold spread. by rewrite Hl. Qed.

Lemma isPending_obj :
  isPending (VRef l) h = Ret (VBool (strict_equals (field o "state") (VStr "pending"))) h.
Proof using Hl. unfold isPending, mbind, M_bind. by rewrite get_prop_obj. Qed.

Lemma isFulfilled_obj :
  isFulfilled (VRef l) h = Ret (VBool (strict_equals (field o "state") (VStr "fulfilled"))) h.
Proof using Hl. unfold isFulfilled, mbind, M_bind, get_prop_opt. by rewrite get_prop_obj. Qed.

Lemma isRejected_obj :
  isRejected (VRef l) h = Ret (VBool (strict_equals (field o "state") (VStr "rejected"))) h.
Proof using Hl. unfold isRejected, mbind, M_bind. by rewrite get_prop_obj. Qed.

(** What the source computes: fulfilled, and [data] is not [undefined]. *)
Lemma isFulfilledAndDefined_obj :
  isFulfilledAndDefined (VRef l) h =
  Ret (VBool (strict_equals (field o "state") (VStr "fulfilled")
              && negb (strict_equals (field o "data") VUndefined))) h.
Proof using Hl.
  unfold isFulfilledAndDefined, mbind, M_bind, to_boolean. rewrite get_prop_obj.
  destruct (strict_equals (field o "state") (VStr "fulfilled")); [|done].
  rewrite get_prop_obj. by destruct (field o "data").
Qed.

Lemma is_obj :
  is_ (VRef l) h = Ret (VBool (has_property o "state" && has_property o "isLoading")) h.
Proof using Hl.
  unfold is_, mbind, M_bind. rewrite reflect_has_obj. unfold to_boolean.
  destruct (has_property o "state"); [|done].
  by rewrite reflect_has_obj.
Qed.

Lemma fork_obj d :
  fork (VRef l) d h =
  if includes fork_tags (field o "state")
  then Ret (VRef (length h)) (h ++ [literal (<["data" := d]> (own_enumerable o))])
  else Throw fork_error h.
Proof using Hl.
  unfold fork, mbind, M_bind. rewrite get_prop_obj.
  destruct (includes fork_tags (field o "state")); [|done].
  cbn [negb]. by rewrite spread_obj.
Qed.

End OnObject.

Lemma includes_fork_tags v : includes fork_tags v = true ↔ recognized v.
Proof.
  unfold includes, fork_tags, recognized, strict_equals. cbn.
  rewrite !orb_true_iff, !bool_decide_eq_true. intuition congruence.
Qed.


Lemma heap_new_cell (h : heap) (o : object) : (h ++ [o]) !! length h = Some o.
Proof. by rewrite lookup_app_r, Nat.sub_diag. Qed.

Lemma heap_old_cell (h : heap) (o o0 : object) l : h !! l = Some o0 → (h ++ [o]) !! l = Some o0.
Proof. intros H. by rewrite lookup_app_l; [|eapply lookup_lt_Some]. Qed.

Lemma ref_or_not (v : value) : (∃ l, v = VRef l) ∨ (∀ l, v ≠ VRef l).
Proof. destruct v; eauto; right; discriminate. Qed.


Lemma isFulfilledAndDefined_non_ref (h : heap) (v : value) :
  (∀ l, v ≠ VRef l) → isFulfilledAndDefined v h = Ret (VBool false) h.
Proof.
  intros Hv. destruct v as [| |b|n|s|l]; [done | done | | | | by destruct (Hv l)].
  - destruct b; reflexivity.
  - unfold isFulfilledAndDefined, mbind, M_bind.
    destruct (to_boolean (VNum n)) eqn:E; [reflexivity | unfold mret, M_ret; by rewrite E].
  - unfold isFulfilledAndDefined, mbind, M_bind.
    destruct (to_boolean (VStr s)) eqn:E; [reflexivity | unfold mret, M_ret; by rewrite E].
Qed.

Lemma find_property_set_own (o : object) (k j : string) (p : property) :
  is_Some (find_property o j) →
  is_Some (find_property (Object (<[k := p]> (own o)) (protos o)) j).
Proof.
  unfold find_property. cbn. destruct (decide (k = j)) as [-> | Hne].
  - by rewrite lookup_insert_eq.
  - by rewrite lookup_insert_ne.
Qed.

(** What a [fork] that passed its guard has built. *)
Lemma forked_field (m : gmap string value) (d : value) (k : string) :
  field (literal (<["data" := d]> m)) k =
  if decide (k = "data") then d else default VUndefined (m !! k).
Proof.
  rewrite field_literal. destruct (decide (k = "data")) as [-> | Hne].
  - by rewrite lookup_insert_eq.
  - by rewrite lookup_insert_ne.
Qed.

(** ** [fork] *)










(** ** The state predicates *)

(** C3 (evaluation of the source where it departs from the claim).
    [isFulfilledAndDefined({state: "fulfilled", data: null, isLoading:
    false})] returns [true]: the test is [typeof data.data !== 'undefined'],
    and [typeof null] is ["object"]. *)
Theorem isFulfilledAndDefined_null_payload (h : heap) :
  (v ← alloc (literal fulfilled_null_literal); isFulfilledAndDefined v) h
  = Ret (VBool true) (h ++ [literal fulfilled_null_literal]).
Proof.
  unfold mbind at 1. unfold M_bind, alloc.
  by rewrite (isFulfilledAndDefined_obj _ _ _
                (heap_new_cell h (literal fulfilled_null_literal))).
Qed.

(** C4 (counterexample).  [isPending(undefined)] and [isRejected(undefined)]
    throw a [TypeError]: they read [data.state] without a guard. *)
Lemma isPending_undefined_throws :
  isPending VUndefined [] = Throw TypeError [] ∧
  isRejected VUndefined [] = Throw TypeError [] ∧
  ¬ (∃ b h', isPending VUndefined [] = Ret b h').
Proof. split_and!; [done | done | intros (b & h' & [=])]. Qed.

(** C4 (amended).  The constructors return on all arguments.  [isFulfilled]
    and [isFulfilledAndDefined], whose parameter is optional, return a
    boolean on every value, [false] on [undefined] and [null].  [isPending]
    and [isRejected], whose parameter is required, return a boolean on every
    value other than [undefined] and [null], and throw a [TypeError] on
    these two. *)
Theorem constructors_and_predicates_totality (h : heap) (v d e il : value) :
  val_ok h v →
  (∃ r h', create d il h = Ret r h') ∧
  (∃ r h', resolve d h = Ret r h') ∧
  (∃ r h', reject d e h = Ret r h') ∧
  (∃ b, isFulfilled v h = Ret (VBool b) h) ∧
  (∃ b, isFulfilledAndDefined v h = Ret (VBool b) h) ∧
  isFulfilled VUndefined h = Ret (VBool false) h ∧
  isFulfilled VNull h = Ret (VBool false) h ∧
  isFulfilledAndDefined VUndefined h = Ret (VBool false) h ∧
  isFulfilledAndDefined VNull h = Ret (VBool false) h ∧
  (v ≠ VUndefined → v ≠ VNull →
     (∃ b, isPending v h = Ret (VBool b) h) ∧ (∃ b, isRejected v h = Ret (VBool b) h)) ∧
  isPending VUndefined h = Throw TypeError h ∧
  isPending VNull h = Throw TypeError h ∧
  isRejected VUndefined h = Throw TypeError h ∧
  isRejected VNull h = Throw TypeError h.
Proof.
  intros Hv. split_and!; try reflexivity.
  - unfold create, alloc. eauto.
  - unfold resolve, alloc. eauto.
  - unfold reject, alloc. eauto.
  - destruct v as [| |b|n|s|l]; try (cbv; eauto; fail).
    destruct Hv as [o Hl]. rewrite (isFulfilled_obj h l o Hl). eauto.
  - destruct (ref_or_not v) as [[l ->] | Hn].
    + destruct Hv as [o Hl]. rewrite (isFulfilledAndDefined_obj h l o Hl). eauto.
    + rewrite (isFulfilledAndDefined_non_ref h v Hn). eauto.
  - intros H1 H2. destruct v as [| |b|n|s|l]; try done; try (cbv; eauto; fail).
    destruct Hv as [o Hl].
    rewrite (isPending_obj h l o Hl), (isRejected_obj h l o Hl). eauto.
Qed.

(** An empty object, which has no [state] at all, and the heap holding it. *)
Lemma constructors_and_predicates_totality_witness :
  (∃ b, isFulfilled (VRef 0) [literal ∅] = Ret (VBool b) [literal ∅]) ∧
  (∃ b, isPending (VRef 0) [literal ∅] = Ret (VBool b) [literal ∅]).
Proof.
  pose proof (constructors_and_predicates_totality [literal ∅] (VRef 0)
                VUndefined VUndefined VUndefined (mk_is_Some _ _ eq_refl))
    as (_ & _ & _ & Hf & _ & _ & _ & _ & _ & Hp & _).
  split; [exact Hf | apply Hp; discriminate].
Defined.

(** C9.  On an object that carries a [state] key, own or inherited, the
    three state predicates return booleans of which at most one is [true];
    on the value built by [create], [resolve] or [reject] exactly one is:
    [isPending], [isFulfilled] and [isRejected] respectively. *)
Theorem state_predicates_exclusive
    (h : heap) (l : loc) (o : object) (p : property) (d e il : value) :
  h !! l = Some o →
  find_property o "state" = Some p →
  (∃ bp bf br : bool,
     classify (VRef l) h = Ret (VBool bp, VBool bf, VBool br) h ∧
     bp && bf = false ∧ bp && br = false ∧ bf && br = false) ∧
  (∃ h', (v ← create d il; classify v) h = Ret (VBool true, VBool false, VBool false) h') ∧
  (∃ h', (v ← resolve d; classify v) h = Ret (VBool false, VBool true, VBool false) h') ∧
  (∃ h', (v ← reject d e; classify v) h = Ret (VBool false, VBool false, VBool true) h').
Proof.
  intros Hl Hs.
  assert (Hclass : ∀ h1 l1 o1, h1 !! l1 = Some o1 →
            classify (VRef l1) h1 =
            Ret (VBool (strict_equals (field o1 "state") (VStr "pending")),
                 VBool (strict_equals (field o1 "state") (VStr "fulfilled")),
                 VBool (strict_equals (field o1 "state") (VStr "rejected"))) h1).
  { intros h1 l1 o1 H1. unfold classify, mbind, M_bind.
    by rewrite (isPending_obj _ _ _ H1), (isFulfilled_obj _ _ _ H1),
               (isRejected_obj _ _ _ H1). }
  split_and!.
  - eexists _, _, _. split; [apply (Hclass _ _ _ Hl) |].
    unfold field, strict_equals. rewrite Hs. cbn [from_option].
    split_and!; repeat case_bool_decide; first [reflexivity | congruence].
  - eexists. unfold mbind at 1. unfold M_bind at 1. unfold create, alloc.
    by rewrite (Hclass _ _ _ (heap_new_cell h _)).
  - eexists. unfold mbind at 1. unfold M_bind at 1. unfold resolve, alloc.
    by rewrite (Hclass _ _ _ (heap_new_cell h _)).
  - eexists. unfold mbind at 1. unfold M_bind at 1. unfold reject, alloc.
    by rewrite (Hclass _ _ _ (heap_new_cell h _)).
Qed.

(** An object whose tag is none of the three: all predicates are [false]. *)
Lemma state_predicates_exclusive_witness :
  ∃ bp bf br : bool,
    classify (VRef 0) [ literal (<["state" := VNum 3]> ∅) ] =
      Ret (VBool bp, VBool bf, VBool br) [ literal (<["state" := VNum 3]> ∅) ] ∧
    bp && bf = false ∧ bp && br = false ∧ bf && br = false.
Proof.
  exact (proj1 (state_predicates_exclusive [ literal (<["state" := VNum 3]> ∅) ] 0 _
                  (Property (VNum 3) true)
                  VUndefined VUndefined VUndefined eq_refl eq_refl)).
Defined.

(** ** The structural recognizer *)

(** C5.  On an object [is] returns [true] exactly when the object has a
    [state] key and an [isLoading] key, as own or inherited properties,
    enumerable or not.  Nothing else is looked at: once it is [true] for
    [o] it is [true] for [o] with any own key set to any value, be it
    [state] set to a value that is no tag, a payload key, or a key outside
    the shape. *)
Theorem is_checks_two_keys_only (h : heap) (l : loc) (o : object) :
  h !! l = Some o →
  (∃ b : bool,
     is_ (VRef l) h = Ret (VBool b) h ∧
     (b = true ↔ is_Some (find_property o "state") ∧ is_Some (find_property o "isLoading"))) ∧
  (∀ (k : string) (p : property) (h' : heap) (l' : loc),
     h' !! l' = Some (Object (<[k := p]> (own o)) (protos o)) →
     is_ (VRef l) h = Ret (VBool true) h →
     is_ (VRef l') h' = Ret (VBool true) h').
Proof.
  intros Hl. rewrite (is_obj h l o Hl). unfold has_property. split.
  - eexists. split; [reflexivity |].
    by rewrite andb_true_iff, !bool_decide_eq_true.
  - intros k p h' l' Hl' [= Hb]. rewrite (is_obj h' l' _ Hl').
    apply andb_true_iff in Hb as [Hs Hi]. apply bool_decide_eq_true in Hs, Hi.
    do 2 f_equal. unfold has_property. apply andb_true_iff.
    split; apply bool_decide_eq_true; by apply find_property_set_own.
Qed.

(** An object with an unknown tag of its own, an inherited [isLoading] and
    a non-enumerable extra key. *)
Lemma is_checks_two_keys_only_witness :
  is_ (VRef 0)
    [ Object (<["state" := Property (VStr "unknown") true]>
              (<["extra" := Property (VNum 1) false]> ∅))
             [ {[ "isLoading" := Property VNull true ]} ] ]
  = Ret (VBool true)
    [ Object (<["state" := Property (VStr "unknown") true]>
              (<["extra" := Property (VNum 1) false]> ∅))
             [ {[ "isLoading" := Property VNull true ]} ] ].
Proof.
  destruct (proj1 (is_checks_two_keys_only
    [ Object (<["state" := Property (VStr "unknown") true]>
              (<["extra" := Property (VNum 1) false]> ∅))
             [ {[ "isLoading" := Property VNull true ]} ] ]
    0 _ eq_refl)) as (b & Hrun & Hiff).
  rewrite Hrun. do 2 f_equal. apply Hiff.
  split; apply (mk_is_Some _ _ eq_refl).
Defined.

(** ** The constructors *)

(** C6.  [create(d, il)] returns a new object literal with [state]
    ["pending"], [data] [d] and [isLoading] [il ?? false]; [isPending] is
    [true] on it, [isFulfilled] and [isRejected] are [false].  With the
    second argument omitted, [isLoading] is [false]. *)
Theorem create_pending (h : heap) (d il : value) :
  ∃ (l : loc) (h' : heap) (m : gmap string value),
    create d il h = Ret (VRef l) h' ∧
    h' !! l = Some (literal m) ∧
    m !! "state" = Some (VStr "pending") ∧
    m !! "data" = Some d ∧
    m !! "isLoading" = Some (nullish_coalesce il (VBool false)) ∧
    isPending (VRef l) h' = Ret (VBool true) h' ∧
    isFulfilled (VRef l) h' = Ret (VBool false) h' ∧
    isRejected (VRef l) h' = Ret (VBool false) h' ∧
    ∃ m', create d VUndefined h = Ret (VRef l) (h ++ [literal m']) ∧
          m' !! "state" = Some (VStr "pending") ∧
          m' !! "data" = Some d ∧
          m' !! "isLoading" = Some (VBool false).
Proof.
  unfold create, alloc. eexists _, _, _.
  split; [reflexivity |]. split; [apply heap_new_cell |].
  rewrite (isPending_obj _ _ _ (heap_new_cell h _)),
          (isFulfilled_obj _ _ _ (heap_new_cell h _)),
          (isRejected_obj _ _ _ (heap_new_cell h _)).
  split_and!; try reflexivity.
  eexists. split_and!; reflexivity.
Qed.

(** C7.  [resolve(d)] returns a new object literal with [state]
    ["fulfilled"], [isLoading] [false] and [data] [d], on which [isFulfilled]
    is [true]. *)
Theorem resolve_fulfilled (h : heap) (d : value) :
  ∃ (l : loc) (h' : heap) (m : gmap string value),
    resolve d h = Ret (VRef l) h' ∧
    h' !! l = Some (literal m) ∧
    m !! "state" = Some (VStr "fulfilled") ∧
    m !! "isLoading" = Some (VBool false) ∧
    m !! "data" = Some d ∧
    isFulfilled (VRef l) h' = Ret (VBool true) h'.
Proof.
  unfold resolve, alloc. eexists _, _, _.
  split; [reflexivity |]. split; [apply heap_new_cell |].
  rewrite (isFulfilled_obj _ _ _ (heap_new_cell h _)).
  split_and!; reflexivity.
Qed.

(** C8.  [reject(d, e)] returns a new object literal with [state]
    ["rejected"], [error] [e], [data] [d] and [isLoading] [false], on which
    [isRejected] is [true]. *)
Theorem reject_rejected (h : heap) (d e : value) :
  ∃ (l : loc) (h' : heap) (m : gmap string value),
    reject d e h = Ret (VRef l) h' ∧
    h' !! l = Some (literal m) ∧
    m !! "state" = Some (VStr "rejected") ∧
    m !! "error" = Some e ∧
    m !! "data" = Some d ∧
    m !! "isLoading" = Some (VBool false) ∧
    isRejected (VRef l) h' = Ret (VBool true) h'.
Proof.
  unfold reject, alloc. eexists _, _, _.
  split; [reflexivity |]. split; [apply heap_new_cell |].
  rewrite (isRejected_obj _ _ _ (heap_new_cell h _)).
  split_and!; reflexivity.
Qed.

Lemma has_property_own_enumerable (o : object) k v :
  own_enumerable o !! k = Some v → has_property o k = true.
Proof.
  unfold own_enumerable, has_property. rewrite lookup_omap.
  destruct (own o !! k) as [p|] eqn:E; cbn; [|done]. intros _.
  apply bool_decide_eq_true. unfold find_property. cbn. by rewrite E.
Qed.

(** ** Further properties of [fork] *)


(** X2.  Forking a fork: on a source that holds a recognized [state] as an
    own enumerable property the second [fork] does not throw, and the
    object it returns is the one a single [fork] with the last payload
    returns; the first payload leaves no trace in it. *)
Theorem fork_twice (h : heap) (l : loc) (o : object) (s a b : value) :
  h !! l = Some o →
  own_enumerable o !! "state" = Some s →
  recognized s →
  ∃ (l2 : loc) (h2 : heap) (l1 : loc) (h1 : heap),
    (v ← fork (VRef l) a; fork v b) h = Ret (VRef l2) h2 ∧
    fork (VRef l) b h = Ret (VRef l1) h1 ∧
    h2 !! l2 = Some (literal (<["data" := b]> (own_enumerable o))) ∧
    h1 !! l1 = Some (literal (<["data" := b]> (own_enumerable o))).
Proof.
  intros Hl Hs Hst. pose proof Hst as Hinc. apply includes_fork_tags in Hinc.
  pose proof (field_own_enumerable o _ _ Hs) as Hf.
  set (o1 := literal (<["data" := a]> (own_enumerable o))).
  assert (Hf1 : field o1 "state" = s).
  { unfold o1. by rewrite forked_field, decide_False, Hs. }
  exists (length (h ++ [o1])),
         ((h ++ [o1]) ++ [literal (<["data" := b]> (own_enumerable o1))]),
         (length h), (h ++ [literal (<["data" := b]> (own_enumerable o))]).
  split_and!.
  - unfold mbind at 1. unfold M_bind at 1.
    rewrite (fork_obj h l o Hl), Hf, Hinc. fold o1.
    by rewrite (fork_obj _ _ _ (heap_new_cell h o1)), Hf1, Hinc.
  - by rewrite (fork_obj h l o Hl), Hf, Hinc.
  - rewrite heap_new_cell. unfold o1.
    by rewrite own_enumerable_literal, insert_insert_eq.
  - apply heap_new_cell.
Qed.

Lemma fork_twice_witness :
  ∃ (l2 : loc) (h2 : heap) (l1 : loc) (h1 : heap),
    (v ← fork (VRef 0) (VNum 1); fork v (VNum 2))
      [ literal (<["state" := VStr "pending"]> (<["isLoading" := VBool true]> ∅)) ]
    = Ret (VRef l2) h2 ∧
    fork (VRef 0) (VNum 2)
      [ literal (<["state" := VStr "pending"]> (<["isLoading" := VBool true]> ∅)) ]
    = Ret (VRef l1) h1 ∧
    h2 !! l2 = Some (literal (<["data" := VNum 2]> (own_enumerable
                 (literal (<["state" := VStr "pending"]> (<["isLoading" := VBool true]> ∅)))))) ∧
    h1 !! l1 = Some (literal (<["data" := VNum 2]> (own_enumerable
                 (literal (<["state" := VStr "pending"]> (<["isLoading" := VBool true]> ∅)))))).
Proof.
  apply (fork_twice
           [ literal (<["state" := VStr "pending"]> (<["isLoading" := VBool true]> ∅)) ]
           0 _ (VStr "pending") (VNum 1) (VNum 2) eq_refl).
  - reflexivity.
  - left; reflexivity.
Defined.

(** X3.  [fork] keeps the answers of the state predicates: on a source that
    holds a recognized [state] as an own enumerable property, [isPending],
    [isFulfilled] and [isRejected] return on the result what they return on
    the source.  [is] returns [true] on the result exactly when [isLoading]
    is an own enumerable property of the source, in which case it is [true]
    on the source as well. *)
Theorem fork_keeps_predicates (h : heap) (l : loc) (o : object) (s d : value) :
  h !! l = Some o →
  own_enumerable o !! "state" = Some s →
  recognized s →
  ∃ (l' : loc) (h' : heap) (t : value * value * value),
    fork (VRef l) d h = Ret (VRef l') h' ∧
    classify (VRef l) h = Ret t h ∧
    classify (VRef l') h' = Ret t h' ∧
    is_ (VRef l') h'
      = Ret (VBool (bool_decide (is_Some (own_enumerable o !! "isLoading")))) h' ∧
    (is_Some (own_enumerable o !! "isLoading") → is_ (VRef l) h = Ret (VBool true) h).
Proof.
  intros Hl Hs Hst. apply includes_fork_tags in Hst.
  pose proof (field_own_enumerable o _ _ Hs) as Hf.
  set (r := literal (<["data" := d]> (own_enumerable o))).
  pose proof (heap_new_cell h r) as Hr.
  assert (Hfr : field r "state" = field o "state").
  { unfold r. by rewrite forked_field, decide_False, Hs, Hf. }
  eexists (length h), (h ++ [r]), _.
  split; [by rewrite (fork_obj h l o Hl), Hf, Hst |].
  unfold classify, mbind, M_bind.
  rewrite (isPending_obj _ _ _ Hl), (isFulfilled_obj _ _ _ Hl), (isRejected_obj _ _ _ Hl).
  rewrite (isPending_obj _ _ _ Hr), (isFulfilled_obj _ _ _ Hr), (isRejected_obj _ _ _ Hr).
  rewrite (is_obj _ _ _ Hl), (is_obj _ _ _ Hr), Hfr.
  split_and!; try reflexivity.
  - unfold r. rewrite !has_property_literal, !lookup_insert_ne, Hs by done.
    by rewrite (bool_decide_eq_true_2 (is_Some (Some s))).
  - intros [v Hv].
    by rewrite (has_property_own_enumerable o _ _ Hs), (has_property_own_enumerable o _ _ Hv).
Qed.

Lemma fork_keeps_predicates_witness :
  ∃ (l' : loc) (h' : heap) (t : value * value * value),
    fork (VRef 0) (VStr "x") [ literal (<["state" := VStr "rejected"]> ∅) ]
      = Ret (VRef l') h' ∧
    classify (VRef 0) [ literal (<["state" := VStr "rejected"]> ∅) ]
      = Ret t [ literal (<["state" := VStr "rejected"]> ∅) ] ∧
    classify (VRef l') h' = Ret t h'.
Proof.
  destruct (fork_keeps_predicates [ literal (<["state" := VStr "rejected"]> ∅) ]
              0 _ (VStr "rejected") (VStr "x") eq_refl)
    as (l' & h' & t & Hrun & Hc & Hc' & _).
  - reflexivity.
  - right; right; reflexivity.
  - exists l', h', t. split_and!; [exact Hrun | exact Hc | exact Hc'].
Defined.

(** X4.  [isFulfilledAndDefined] after [fork]: on a source with a recognized
    [state] it is [true] exactly when the source holds [state] ["fulfilled"]
    as an own enumerable property, so that the result has it, and the new
    payload is not [undefined], whatever the source held as [data]. *)
Theorem fork_then_isFulfilledAndDefined (h : heap) (l : loc) (o : object) (d : value) :
  h !! l = Some o →
  recognized (field o "state") →
  ∃ (b : bool) (h' : heap),
    (v ← fork (VRef l) d; isFulfilledAndDefined v) h = Ret (VBool b) h' ∧
    (b = true ↔ own_enumerable o !! "state" = Some (VStr "fulfilled") ∧ d ≠ VUndefined).
Proof.
  intros Hl Hst. apply includes_fork_tags in Hst.
  set (r := literal (<["data" := d]> (own_enumerable o))).
  eexists _, (h ++ [r]). split.
  - unfold mbind at 1. unfold M_bind at 1. rewrite (fork_obj h l o Hl), Hst.
    fold r. apply (isFulfilledAndDefined_obj _ _ _ (heap_new_cell h r)).
  - unfold r. rewrite !forked_field, decide_False, decide_True by done.
    unfold strict_equals.
    rewrite andb_true_iff, negb_true_iff, bool_decide_eq_true, bool_decide_eq_false.
    destruct (own_enumerable o !! "state") as [v|]; cbn; [| by intuition].
    split; intros [H1 H2]; split; congruence.
Qed.

Lemma fork_then_isFulfilledAndDefined_witness :
  ∃ (b : bool) (h' : heap),
    (v ← fork (VRef 0) (VNum 0); isFulfilledAndDefined v)
      [ literal (<["state" := VStr "fulfilled"]> (<["data" := VUndefined]> ∅)) ]
    = Ret (VBool b) h' ∧
    (b = true ↔
     own_enumerable (literal (<["state" := VStr "fulfilled"]> (<["data" := VUndefined]> ∅)))
       !! "state" = Some (VStr "fulfilled") ∧ VNum 0 ≠ VUndefined).
Proof.
  apply (fork_then_isFulfilledAndDefined
           [ literal (<["state" := VStr "fulfilled"]> (<["data" := VUndefined]> ∅)) ]
           0 _ (VNum 0) eq_refl).
  right; left; reflexivity.
Defined.

(** X5.  [fork] never hands back its source: the reference it returns was
    not allocated before the call and differs from the source's, and the
    heap grows by that one cell.  This holds also when the new payload is
    the one the source already holds, where for a source that is an object
    literal the result is an equal object at a new reference. *)
Theorem fork_returns_new_reference (h : heap) (l : loc) (o : object) (d : value) :
  h !! l = Some o →
  recognized (field o "state") →
  ∃ (l' : loc) (h' : heap),
    fork (VRef l) d h = Ret (VRef l') h' ∧
    l' ≠ l ∧
    h !! l' = None ∧
    length h' = S (length h) ∧
    (own_enumerable o !! "data" = Some d → h' !! l' = Some (literal (own_enumerable o))) ∧
    (∀ m, o = literal m → m !! "data" = Some d → h' !! l' = Some o).
Proof.
  intros Hl Hst. apply includes_fork_tags in Hst.
  exists (length h), (h ++ [literal (<["data" := d]> (own_enumerable o))]).
  rewrite (fork_obj h l o Hl), Hst.
  split_and!; [done | | | | |].
  - apply lookup_lt_Some in Hl. lia.
  - by apply lookup_ge_None.
  - rewrite length_app. cbn. lia.
  - intros Hd. rewrite heap_new_cell. by rewrite insert_id.
  - intros m -> Hd. rewrite heap_new_cell, own_enumerable_literal. by rewrite insert_id.
Qed.

Lemma fork_returns_new_reference_witness :
  ∃ (l' : loc) (h' : heap),
    fork (VRef 0) (VNum 1)
      [ literal (<["state" := VStr "fulfilled"]> (<["data" := VNum 1]> ∅)) ]
    = Ret (VRef l') h' ∧
    l' ≠ 0 ∧
    h' !! l' = Some (literal (<["state" := VStr "fulfilled"]> (<["data" := VNum 1]> ∅))).
Proof.
  destruct (fork_returns_new_reference
              [ literal (<["state" := VStr "fulfilled"]> (<["data" := VNum 1]> ∅)) ]
              0 _ (VNum 1) eq_refl) as (l' & h' & Hrun & Hne & _ & _ & _ & Hsame).
  - right; left; reflexivity.
  - exists l', h'. split_and!; [exact Hrun | exact Hne |].
    apply (Hsame _ eq_refl). reflexivity.
Defined.

(** X6.  The guard of [fork] and the state predicates agree: on any object
    [fork] returns exactly when one of [isPending], [isFulfilled],
    [isRejected] is [true] of it, and throws its error exactly when all
    three are [false]. *)
Theorem fork_returns_iff_classified (h : heap) (l : loc) (o : object) (d : value) :
  h !! l = Some o →
  ∃ bp bf br : bool,
    classify (VRef l) h = Ret (VBool bp, VBool bf, VBool br) h ∧
    ((∃ v h', fork (VRef l) d h = Ret v h') ↔ bp || bf || br = true) ∧
    (fork (VRef l) d h = Throw fork_error h ↔ bp || bf || br = false).
Proof.
  intros Hl. eexists _, _, _. split.
  { unfold classify, mbind, M_bind.
    by rewrite (isPending_obj _ _ _ Hl), (isFulfilled_obj _ _ _ Hl), (isRejected_obj _ _ _ Hl). }
  rewrite (fork_obj h l o Hl).
  assert (Hb : includes fork_tags (field o "state") =
               strict_equals (field o "state") (VStr "pending")
               || strict_equals (field o "state") (VStr "fulfilled")
               || strict_equals (field o "state") (VStr "rejected")).
  { apply Bool.eq_iff_eq_true.
    rewrite includes_fork_tags, !orb_true_iff. unfold strict_equals, recognized.
    rewrite !bool_decide_eq_true. tauto. }
  rewrite <- Hb. destruct (includes fork_tags (field o "state")).
  - split; split; [done | eauto | discriminate | discriminate].
  - split; split; [intros (v & h' & [=]) | discriminate | done | done].
Qed.

Lemma fork_returns_iff_classified_witness :
  ∃ bp bf br : bool,
    classify (VRef 0) [inherited_pending]
      = Ret (VBool bp, VBool bf, VBool br) [inherited_pending] ∧
    ((∃ v h', fork (VRef 0) VNull [inherited_pending] = Ret v h') ↔ bp || bf || br = true) ∧
    (fork (VRef 0) VNull [inherited_pending] = Throw fork_error [inherited_pending]
       ↔ bp || bf || br = false).
Proof. exact (fork_returns_iff_classified [inherited_pending] 0 _ VNull eq_refl). Defined.

(** X7.  [fork] forgets what the source held as [data]: two sources with a
    recognized state whose own enumerable properties agree on every key
    other than [data] fork to equal objects. *)
Theorem fork_ignores_old_data (h1 h2 : heap) (l1 l2 : loc) (o1 o2 : object) (d : value) :
  h1 !! l1 = Some o1 →
  h2 !! l2 = Some o2 →
  delete "data" (own_enumerable o1) = delete "data" (own_enumerable o2) →
  recognized (field o1 "state") →
  recognized (field o2 "state") →
  ∃ (l1' l2' : loc) (h1' h2' : heap) (r : object),
    fork (VRef l1) d h1 = Ret (VRef l1') h1' ∧
    fork (VRef l2) d h2 = Ret (VRef l2') h2' ∧
    h1' !! l1' = Some r ∧
    h2' !! l2' = Some r.
Proof.
  intros Hl1 Hl2 Heq Hst1 Hst2. apply includes_fork_tags in Hst1, Hst2.
  exists (length h1), (length h2),
         (h1 ++ [literal (<["data" := d]> (own_enumerable o1))]),
         (h2 ++ [literal (<["data" := d]> (own_enumerable o2))]),
         (literal (<["data" := d]> (own_enumerable o1))).
  rewrite (fork_obj _ _ _ Hl1), (fork_obj _ _ _ Hl2), Hst1, Hst2.
  split_and!; [done | done | apply heap_new_cell |].
  rewrite heap_new_cell. do 2 f_equal.
  by rewrite <- (insert_delete_eq (own_enumerable o1)),
             <- (insert_delete_eq (own_enumerable o2)), Heq.
Qed.

Lemma fork_ignores_old_data_witness :
  ∃ (l1' l2' : loc) (h1' h2' : heap) (r : object),
    fork (VRef 0) (VStr "new")
      [ literal (<["state" := VStr "pending"]> (<["data" := VNum 1]> ∅));
        literal (<["state" := VStr "pending"]> ∅) ]
      = Ret (VRef l1') h1' ∧
    fork (VRef 1) (VStr "new")
      [ literal (<["state" := VStr "pending"]> (<["data" := VNum 1]> ∅));
        literal (<["state" := VStr "pending"]> ∅) ]
      = Ret (VRef l2') h2' ∧
    h1' !! l1' = Some r ∧
    h2' !! l2' = Some r.
Proof.
  apply (fork_ignores_old_data
           [ literal (<["state" := VStr "pending"]> (<["data" := VNum 1]> ∅));
             literal (<["state" := VStr "pending"]> ∅) ]
           [ literal (<["state" := VStr "pending"]> (<["data" := VNum 1]> ∅));
             literal (<["state" := VStr "pending"]> ∅) ]
           0 1 _ _ (VStr "new") eq_refl eq_refl).
  - vm_compute. reflexivity.
  - left; reflexivity.
  - left; reflexivity.
Defined.

(** X8.  [fork] commutes with the constructors: forking a value built by
    [create], [resolve] or [reject] never throws, and returns the object
    that the same constructor builds from the new payload (and the same
    [isLoading] or [error]). *)
Theorem fork_of_constructor (h : heap) (d d' e il : value) :
  (∃ (l l0 : loc) (h' h0 : heap) (o : object),
     (v ← create d il; fork v d') h = Ret (VRef l) h' ∧
     create d' il h = Ret (VRef l0) h0 ∧
     h' !! l = Some o ∧ h0 !! l0 = Some o) ∧
  (∃ (l l0 : loc) (h' h0 : heap) (o : object),
     (v ← resolve d; fork v d') h = Ret (VRef l) h' ∧
     resolve d' h = Ret (VRef l0) h0 ∧
     h' !! l = Some o ∧ h0 !! l0 = Some o) ∧
  (∃ (l l0 : loc) (h' h0 : heap) (o : object),
     (v ← reject d e; fork v d') h = Ret (VRef l) h' ∧
     reject d' e h = Ret (VRef l0) h0 ∧
     h' !! l = Some o ∧ h0 !! l0 = Some o).
Proof.
  assert (Hgen : ∀ m0 : gmap string value,
            includes fork_tags (default VUndefined (<["data" := d]> m0 !! "state")) = true →
            ∃ (l l0 : loc) (h' h0 : heap) (o : object),
              (v ← alloc (literal (<["data" := d]> m0)); fork v d') h = Ret (VRef l) h' ∧
              alloc (literal (<["data" := d']> m0)) h = Ret (VRef l0) h0 ∧
              h' !! l = Some o ∧ h0 !! l0 = Some o).
  { intros m0 Hinc. eexists _, _, _, _, (literal (<["data" := d']> m0)). split_and!.
    - unfold mbind at 1. unfold M_bind at 1. unfold alloc at 1.
      rewrite (fork_obj _ _ _ (heap_new_cell h _)), field_literal, Hinc. reflexivity.
    - reflexivity.
    - rewrite heap_new_cell. by rewrite own_enumerable_literal, insert_insert_eq.
    - apply heap_new_cell. }
  split_and!; apply Hgen; reflexivity.
Qed.

(** ** Further properties of the constructors *)

(** X9.  Each call of a constructor returns a reference that was not
    allocated before: two calls with the same arguments return two
    different references to equal objects, and no object that existed
    before is changed. *)
Theorem constructors_allocate_fresh (h : heap) (d e il : value) :
  (∃ (l1 l2 : loc) (h' : heap) (o : object),
     (a ← create d il; b ← create d il; mret (a, b)) h = Ret (VRef l1, VRef l2) h' ∧
     l1 ≠ l2 ∧ h !! l1 = None ∧ h !! l2 = None ∧
     h' !! l1 = Some o ∧ h' !! l2 = Some o ∧
     ∀ l0 o0, h !! l0 = Some o0 → h' !! l0 = Some o0) ∧
  (∃ (l1 l2 : loc) (h' : heap) (o : object),
     (a ← resolve d; b ← resolve d; mret (a, b)) h = Ret (VRef l1, VRef l2) h' ∧
     l1 ≠ l2 ∧ h !! l1 = None ∧ h !! l2 = None ∧
     h' !! l1 = Some o ∧ h' !! l2 = Some o ∧
     ∀ l0 o0, h !! l0 = Some o0 → h' !! l0 = Some o0) ∧
  (∃ (l1 l2 : loc) (h' : heap) (o : object),
     (a ← reject d e; b ← reject d e; mret (a, b)) h = Ret (VRef l1, VRef l2) h' ∧
     l1 ≠ l2 ∧ h !! l1 = None ∧ h !! l2 = None ∧
     h' !! l1 = Some o ∧ h' !! l2 = Some o ∧
     ∀ l0 o0, h !! l0 = Some o0 → h' !! l0 = Some o0).
Proof.
  assert (Hgen : ∀ o : object,
            ∃ (l1 l2 : loc) (h' : heap) (o' : object),
              (a ← alloc o; b ← alloc o; mret (a, b)) h = Ret (VRef l1, VRef l2) h' ∧
              l1 ≠ l2 ∧ h !! l1 = None ∧ h !! l2 = None ∧
              h' !! l1 = Some o' ∧ h' !! l2 = Some o' ∧
              ∀ l0 o0, h !! l0 = Some o0 → h' !! l0 = Some o0).
  { intros o. exists (length h), (length (h ++ [o])), ((h ++ [o]) ++ [o]), o.
    split_and!.
    - reflexivity.
    - rewrite length_app. cbn. lia.
    - by apply lookup_ge_None.
    - apply lookup_ge_None. rewrite length_app. lia.
    - apply heap_old_cell, heap_new_cell.
    - apply heap_new_cell.
    - intros l0 o0 H0. by do 2 apply heap_old_cell. }
  split_and!; apply Hgen.
Qed.

(** ** Further properties of the predicates and of the recognizer *)

(** X10.  What [isFulfilledAndDefined] computes, on every value: it returns
    a boolean, which is [true] exactly for an object whose [state], own or
    inherited, is ["fulfilled"] and whose [data], own or inherited, is not
    [undefined] (a [data] key that neither the object nor its chain binds
    reads as [undefined]); whenever it is [true], [isFulfilled] is [true]
    too. *)
Theorem isFulfilledAndDefined_true_iff (h : heap) (v : value) :
  val_ok h v →
  ∃ b : bool,
    isFulfilledAndDefined v h = Ret (VBool b) h ∧
    (b = true ↔ ∃ l o, v = VRef l ∧ h !! l = Some o ∧
                       field o "state" = VStr "fulfilled" ∧ field o "data" ≠ VUndefined) ∧
    (b = true → isFulfilled v h = Ret (VBool true) h).
Proof.
  intros Hv. destruct (ref_or_not v) as [[l ->] | Hn].
  - destruct Hv as [o Hl]. eexists. split; [apply (isFulfilledAndDefined_obj _ _ _ Hl) |].
    rewrite (isFulfilled_obj _ _ _ Hl). unfold strict_equals.
    rewrite andb_true_iff, negb_true_iff, bool_decide_eq_true, bool_decide_eq_false.
    split.
    + split.
      * intros [Hs Hd]. by exists l, o.
      * intros (l' & o' & [= <-] & Hl' & Hs & Hd). by simplify_eq.
    + intros [Hs _]. by rewrite bool_decide_eq_true_2.
  - exists false. split; [by apply isFulfilledAndDefined_non_ref |].
    split; [| done]. split; [done |]. intros (l & o & -> & _). by destruct (Hn l).
Qed.

(** An object that inherits both its [state] and its payload, the falsy
    number 0. *)
Lemma isFulfilledAndDefined_true_iff_witness :
  isFulfilledAndDefined (VRef 0)
    [ created_from (<["state" := VStr "fulfilled"]> (<["data" := VNum 0]> ∅)) ]
  = Ret (VBool true)
    [ created_from (<["state" := VStr "fulfilled"]> (<["data" := VNum 0]> ∅)) ].
Proof.
  destruct (isFulfilledAndDefined_true_iff
              [ created_from (<["state" := VStr "fulfilled"]> (<["data" := VNum 0]> ∅)) ]
              (VRef 0) (mk_is_Some _ _ eq_refl)) as (b & Hrun & Hiff & _).
  rewrite Hrun. do 2 f_equal. apply Hiff.
  eexists 0, _. split_and!; [reflexivity | reflexivity | reflexivity | discriminate].
Defined.

(** X11.  [is] accepts objects only: on [undefined], [null], a boolean, a
    number or a string, [Reflect.has] throws a [TypeError]. *)
Theorem is_on_non_object (h : heap) (v : value) :
  (∀ l, v ≠ VRef l) → is_ v h = Throw TypeError h.
Proof. intros Hv. destruct v; try reflexivity. by destruct (Hv l). Qed.

Lemma is_on_non_object_witness : is_ VNull [] = Throw TypeError [].
Proof. apply (is_on_non_object [] VNull). discriminate. Defined.

(** X12.  On a boolean, a number or a string the four state predicates
    return [false]: reading [state] of a primitive gives [undefined]. *)
Theorem predicates_on_primitive (h : heap) (v : value) :
  boxable v = true →
  isPending v h = Ret (VBool false) h ∧
  isFulfilled v h = Ret (VBool false) h ∧
  isFulfilledAndDefined v h = Ret (VBool false) h ∧
  isRejected v h = Ret (VBool false) h.
Proof.
  intros Hv. split_and!; [by destruct v | by destruct v | | by destruct v].
  apply isFulfilledAndDefined_non_ref. intros l ->. discriminate.
Qed.

Lemma predicates_on_primitive_witness :
  isPending (VStr "pending") [] = Ret (VBool false) [] ∧
  isFulfilled (VStr "pending") [] = Ret (VBool false) [] ∧
  isFulfilledAndDefined (VStr "pending") [] = Ret (VBool false) [] ∧
  isRejected (VStr "pending") [] = Ret (VBool false) [].
Proof. apply (predicates_on_primitive [] (VStr "pending")). reflexivity. Defined.



(** ** The repository's tests ([src/async-data.spec.ts]) *)

Module Tests.

Definition error_instance : object :=
  literal (<["message" := VStr "This is a fatal error."]> ∅).

Definition pending_obj (d il : value) : object :=
  literal (<["state" := VStr "pending"]> (<["data" := d]> (<["isLoading" := il]> ∅))).
Definition fulfilled_obj (d il : value) : object :=
  literal (<["state" := VStr "fulfilled"]> (<["data" := d]> (<["isLoading" := il]> ∅))).
Definition rejected_obj (d e il : value) : object :=
  literal (<["state" := VStr "rejected"]> (<["data" := d]> (<["error" := e]>
            (<["isLoading" := il]> ∅)))).

(** 'should create pending AsyncData' *)
Example should_create_pending :
  (v ← create VUndefined (VBool true); isPending v) []
  = Ret (VBool true) [pending_obj VUndefined (VBool true)].
Proof. vm_compute. reflexivity. Qed.

(** 'should resolve AsyncData' *)
Example should_resolve :
  (v ← resolve (VNum 1); a ← isFulfilled v; b ← isFulfilledAndDefined v; mret (a, b)) []
  = Ret (VBool true, VBool true) [fulfilled_obj (VNum 1) (VBool false)].
Proof. vm_compute. reflexivity. Qed.

(** 'should reject AsyncData' *)
Example should_reject :
  (v ← reject VUndefined (VRef 0); isRejected v) [error_instance]
  = Ret (VBool true)
      [error_instance; rejected_obj VUndefined (VRef 0) (VBool false)].
Proof. vm_compute. reflexivity. Qed.

(** 'should create AsyncData from an unknown object' *)
Example should_recognize :
  (a ← is_ (VRef 0); b ← isPending (VRef 0); mret (a, b))
    [pending_obj VUndefined (VBool true)]
  = Ret (VBool true, VBool true) [pending_obj VUndefined (VBool true)].
Proof. vm_compute. reflexivity. Qed.

(** 'should fork AsyncData' *)
Example should_fork :
  (p ← create VUndefined (VBool true);
   f ← resolve (VNum 1);
   r ← reject VUndefined (VRef 0);
   _ ← fork p (VStr "forked");
   _ ← fork f (VStr "forked");
   fork r (VStr "forked")) [error_instance]
  = Ret (VRef 6)
      [ error_instance;
        pending_obj VUndefined (VBool true);
        fulfilled_obj (VNum 1) (VBool false);
        rejected_obj VUndefined (VRef 0) (VBool false);
        pending_obj (VStr "forked") (VBool true);
        fulfilled_obj (VStr "forked") (VBool false);
        rejected_obj (VStr "forked") (VRef 0) (VBool false) ].
Proof. vm_compute. reflexivity. Qed.

(** A source that inherits its [state] and [isLoading]: recognized by [is],
    pending, and forked to an object that has neither key. *)
Example inherited_state :
  (a ← is_ (VRef 0); b ← isPending (VRef 0); r ← fork (VRef 0) (VNum 1);
   c ← is_ r; mret (a, b, c)) [inherited_pending]
  = Ret (VBool true, VBool true, VBool false)
      [inherited_pending; literal (<["data" := VNum 1]> ∅)].
Proof. vm_compute. reflexivity. Qed.

End Tests.
